(** * r3f-study-workshop: the PLY geometry normalisation of [PlyModel]

    A shallow embedding of [src/components/SceneComponents.tsx], function
    [PlyModel]: the [useEffect] body that measures, rescales and recentres a
    loaded [BufferGeometry], and the render function that picks the
    primitive ([<points>] or [<mesh>]) and its scale.

    The code is written once over an arithmetic interface [Arith] (the
    numbers and the handful of operations the source applies to them) and
    over an interface [Three] to the three.js methods it calls.  The
    arithmetic is [ieee]: JavaScript's binary64 numbers as Rocq's primitive
    floats, stored into a [Float32Array].

    Of [Loader], [Model] and [UploadedModel] only the per-frame rotation
    callback, which they share with [PlyModel], is embedded. *)

From Stdlib Require Import String Floats ZArith.
From Stdlib Require Import List Bool Lia.
Import ListNotations.

Set Warnings "-inexact-float".

(** ** JavaScript completions

    A call either returns normally or raises. *)

Inductive completion (X : Type) : Type :=
| Normal (x : X)
| Throw.

Arguments Normal {X} x.
Arguments Throw {X}.

(** ** Arithmetic *)

Record Arith : Type := MkArith {
  num : Type;
  lit_0 : num;                      (* the literal [0] *)
  lit_1 : num;                      (* the literal [1] *)
  lit_2 : num;                      (* the literal [2] *)
  lit_0_02 : num;                   (* the literal [0.02] *)
  nadd : num -> num -> num;         (* [a + b] *)
  nsub : num -> num -> num;         (* [a - b] *)
  nmul : num -> num -> num;         (* [a * b] *)
  ndiv : num -> num -> num;         (* [a / b] *)
  ngt : num -> num -> bool;         (* [a > b] *)
  Math_max : num -> num -> num;     (* [Math.max(a, b)] *)
  Math_min : num -> num -> num;     (* [Math.min(a, b)] *)
  toElement : num -> num            (* conversion on a store into the
                                       attribute's typed array *)
}.

Declare Scope js_scope.
Delimit Scope js_scope with js.
Notation "a + b" := (nadd _ a b) : js_scope.
Notation "a - b" := (nsub _ a b) : js_scope.
Notation "a * b" := (nmul _ a b) : js_scope.
Notation "a / b" := (ndiv _ a b) : js_scope.
Notation "a >? b" := (ngt _ a b) (at level 70, no associativity) : js_scope.

Section Model.

Context {A : Arith}.
Local Open Scope js_scope.

(** [Math.max(a, b, c)]. *)
Definition Math_max3 (a b c : num A) : num A :=
  Math_max A (Math_max A a b) c.

(** ** Data *)

Record Vector3 : Type := MkVector3 { vx : num A; vy : num A; vz : num A }.

(** An axis-aligned box; [EmptyBox3] is the box that contains no point. *)
Inductive Box3 : Type :=
| EmptyBox3
| MkBox3 (bmin bmax : Vector3).

(** A [BufferGeometry] as the code reads it.  A three-component attribute is
    the list of its items: item [i] holds what [getX(i)], [getY(i)] and
    [getZ(i)] return, and [count] is the length.  An attribute or the index
    that the loader did not set is [None]. *)
Record BufferGeometry : Type := MkGeometry {
  position : option (list Vector3);   (* [attributes.position] *)
  normal : option (list Vector3);     (* [attributes.normal] *)
  color : option (list Vector3);      (* [attributes.color] *)
  index : option (list nat);          (* [index] *)
  boundingBox : option Box3           (* [boundingBox], [null] until computed *)
}.

Definition set_position (ps : list Vector3) (g : BufferGeometry) : BufferGeometry :=
  MkGeometry (Some ps) (normal g) (color g) (index g) (boundingBox g).

Definition set_normal (ns : list Vector3) (g : BufferGeometry) : BufferGeometry :=
  MkGeometry (position g) (Some ns) (color g) (index g) (boundingBox g).

Definition set_boundingBox (b : Box3) (g : BufferGeometry) : BufferGeometry :=
  MkGeometry (position g) (normal g) (color g) (index g) (Some b).

(** ** The three.js methods the code calls

    None of them is in the repository.  Each takes the object it is called
    on and returns the object after the call, or raises (leaving the object
    as it was). *)
Record Three : Type := MkThree {
  computeBoundingBox : BufferGeometry -> completion BufferGeometry;
  getSize : Box3 -> completion Vector3;
  getCenter : Box3 -> completion Vector3;
  (* [geometry.center]: [None] when the geometry has no such method *)
  center : option (BufferGeometry -> completion BufferGeometry);
  computeVertexNormals : BufferGeometry -> completion BufferGeometry
}.

Definition without_center (T : Three) : Three :=
  MkThree (computeBoundingBox T) (getSize T) (getCenter T) None
          (computeVertexNormals T).

(** ** Accessors of the position attribute *)

Fixpoint update (i : nat) (f : Vector3 -> Vector3) (ps : list Vector3)
  : list Vector3 :=
  match ps, i with
  | [], _ => []
  | p :: ps', O => f p :: ps'
  | p :: ps', S i' => p :: update i' f ps'
  end.

(** [pos.getX(i)]; [None] is JavaScript's [undefined], past the end. *)
Definition getX (pos : list Vector3) (i : nat) : option (num A) :=
  option_map vx (nth_error pos i).
Definition getY (pos : list Vector3) (i : nat) : option (num A) :=
  option_map vy (nth_error pos i).
Definition getZ (pos : list Vector3) (i : nat) : option (num A) :=
  option_map vz (nth_error pos i).

(** [pos.setX(i, v)]; a typed array ignores a store past its end. *)
Definition setX (pos : list Vector3) (i : nat) (v : num A) : list Vector3 :=
  update i (fun p => MkVector3 (toElement A v) (vy p) (vz p)) pos.
Definition setY (pos : list Vector3) (i : nat) (v : num A) : list Vector3 :=
  update i (fun p => MkVector3 (vx p) (toElement A v) (vz p)) pos.
Definition setZ (pos : list Vector3) (i : nat) (v : num A) : list Vector3 :=
  update i (fun p => MkVector3 (vx p) (vy p) (toElement A v)) pos.

(** ** The state the effect works on

    The geometry object, mutated in place, and the React state cell
    [autoScale]. *)
Record World : Type := MkWorld {
  geometry : BufferGeometry;
  autoScale : num A
}.

(** A computation inside the effect: it returns or raises, and either way
    leaves the world as it has made it so far. *)
Definition Eff (X : Type) : Type := World -> completion X * World.

Definition ret {X} (x : X) : Eff X := fun w => (Normal x, w).

Definition bind {X Y} (m : Eff X) (k : X -> Eff Y) : Eff Y :=
  fun w =>
    match m w with
    | (Normal x, w') => k x w'
    | (Throw, w') => (Throw, w')
    end.

(** [try { m } catch (e) { }] *)
Definition try_catch (m : Eff unit) : Eff unit :=
  fun w => (Normal tt, snd (m w)).

(** A method call on the geometry object. *)
Definition call (method : BufferGeometry -> completion BufferGeometry)
  : Eff unit :=
  fun w =>
    match method (geometry w) with
    | Normal g' => (Normal tt, MkWorld g' (autoScale w))
    | Throw => (Throw, w)
    end.

(** A call that only computes a value. *)
Definition eval {X} (c : completion X) : Eff X :=
  fun w => (c, w).

(** Reading a property that is then dereferenced: [null] or [undefined]
    makes the dereference raise a [TypeError]. *)
Definition deref {X} (field : BufferGeometry -> option X) : Eff X :=
  fun w =>
    match field (geometry w) with
    | Some x => (Normal x, w)
    | None => (Throw, w)
    end.

Definition read {X} (field : BufferGeometry -> X) : Eff X :=
  fun w => (Normal (field (geometry w)), w).

Definition setAutoScale (a : num A) : Eff unit :=
  fun w => (Normal tt, MkWorld (geometry w) a).

Definition write_position (ps : list Vector3) : Eff unit :=
  fun w => (Normal tt, MkWorld (set_position ps (geometry w)) (autoScale w)).

End Model.

Arguments Vector3 A : clear implicits.
Arguments Box3 A : clear implicits.
Arguments BufferGeometry A : clear implicits.
Arguments Three A : clear implicits.
Arguments World A : clear implicits.
Arguments Eff A X : clear implicits.

Notation "x <- m ;; k" := (bind m (fun x => k))
  (at level 61, m at next level, right associativity).
Notation "m ;;; k" := (bind m (fun _ => k))
  (at level 61, right associativity).

(** ** [PlyModel] *)

Section PlyModel.

Context {A : Arith}.
Local Open Scope js_scope.

(** The derived scale, lines 110 to 112:
    [maxDim = Math.max(size.x, size.y, size.z)], [desired = 2],
    [auto = maxDim > 0 ? desired / maxDim : 1]. *)
Definition maxDim (size : Vector3 A) : num A :=
  Math_max3 (vx size) (vy size) (vz size).

Definition desired : num A := lit_2 A.

Definition auto_of (size : Vector3 A) : num A :=
  if maxDim size >? lit_0 A then desired / maxDim size else lit_1 A.

(** One turn of the loop of lines 121 to 125.  A read past the end gives
    [undefined], the difference is then [NaN], and the store past the end
    is ignored. *)
Definition loop_body (center : Vector3 A) (pos : list (Vector3 A)) (i : nat)
  : list (Vector3 A) :=
  let pos :=
    match getX pos i with
    | Some x => setX pos i (x - vx center)
    | None => pos
    end in
  let pos :=
    match getY pos i with
    | Some y => setY pos i (y - vy center)
    | None => pos
    end in
  match getZ pos i with
  | Some z => setZ pos i (z - vz center)
  | None => pos
  end.

(** [for (let i = 0; i < pos.count; i++) { ... }]: the stores keep the
    count, so the bound is the count on entry. *)
Definition recenter_loop (center : Vector3 A) (pos : list (Vector3 A))
  : list (Vector3 A) :=
  fold_left (loop_body center) (seq 0 (length pos)) pos.

(** Lines 116 to 127: the geometry's own [center] when it has one, the
    explicit loop otherwise.  [pos.needsUpdate = true] only schedules the
    upload of the attribute and has no counterpart here. *)
Definition recenter (T : Three A) (box : Box3 A) : Eff A unit :=
  match center T with
  | Some native => call native
  | None =>
      c <- eval (getCenter T box) ;;
      pos <- deref position ;;
      write_position (recenter_loop c pos)
  end.

(** Lines 130 to 132. *)
Definition needs_normals (g : BufferGeometry A) : bool :=
  match normal g, index g with
  | None, Some _ => true
  | _, _ => false
  end.

Definition derive_normals (T : Three A) : Eff A unit :=
  g <- read (fun g => g) ;;
  if needs_normals g then call (computeVertexNormals T) else ret tt.

(** Lines 107 to 113. *)
Definition derive_scale (T : Three A) : Eff A (Box3 A) :=
  call (computeBoundingBox T) ;;;
  box <- deref boundingBox ;;
  size <- eval (getSize T box) ;;
  setAutoScale (auto_of size) ;;;
  ret box.

(** The body of the [try] block, lines 105 to 132. *)
Definition normalize (T : Three A) : Eff A unit :=
  box <- derive_scale T ;;
  recenter T box ;;;
  derive_normals T.

(** The effect, lines 102 to 136, on the geometry the loader returned
    ([None] when there is none) and the current [autoScale]. *)
Definition PlyModel_effect (T : Three A)
    (g : option (BufferGeometry A)) (a : num A)
  : option (BufferGeometry A) * num A :=
  match g with
  | None => (None, a)
  | Some g =>
      let w := snd (try_catch (normalize T) (MkWorld g a)) in
      (Some (geometry w), autoScale w)
  end.

(** The geometry and the scale the effect leaves. *)
Definition geometry_after (T : Three A) (g : BufferGeometry A) (a : num A)
  : BufferGeometry A :=
  geometry (snd (try_catch (normalize T) (MkWorld g a))).

Definition autoScale_after (T : Three A) (g : BufferGeometry A) (a : num A)
  : num A :=
  autoScale (snd (try_catch (normalize T) (MkWorld g a))).

(** *** Rendering, lines 144 to 167 *)

Record ModelProps : Type := MkProps {
  scale : option (num A);           (* [scale = 1] when not given *)
  rotationSpeed : option (num A)    (* [rotationSpeed = 0] when not given *)
}.

Record pointsMaterial : Type := MkPointsMaterial {
  size : num A;
  pm_vertexColors : bool;
  sizeAttenuation : bool
}.

(** [metalness] and [roughness] are constants and are left out. *)
Record meshStandardMaterial : Type := MkMeshMaterial {
  mm_vertexColors : bool;
  mm_color : option string
}.

Inductive Element : Type :=
| null
| points (g : BufferGeometry A) (scale3 : num A * num A * num A)
         (material : pointsMaterial)
| mesh (g : BufferGeometry A) (scale3 : num A * num A * num A)
       (material : meshStandardMaterial).

Definition scale_prop (props : ModelProps) : num A :=
  match scale props with
  | Some s => s
  | None => lit_1 A
  end.

(** [Boolean(geometry.attributes.color)], line 146. *)
Definition hasVertexColors (g : BufferGeometry A) : bool :=
  match color g with
  | Some _ => true
  | None => false
  end.

Definition PlyModel_render (g : option (BufferGeometry A)) (autoScale : num A)
    (props : ModelProps) : Element :=
  let scale := scale_prop props in
  match g with
  | None => null
  | Some g =>
      match index g with
      | None =>
          points g (autoScale * scale, autoScale * scale, autoScale * scale)
                 (MkPointsMaterial (lit_0_02 A * scale) (hasVertexColors g) true)
      | Some _ =>
          mesh g (autoScale * scale, autoScale * scale, autoScale * scale)
               (MkMeshMaterial (hasVertexColors g)
                  (if hasVertexColors g then None else Some "#bdbdbd"%string))
      end
  end.

(** What is on screen after a load: the first render has [autoScale = 1]
    (line 99), the effect runs, and the component renders again with the
    geometry and the scale the effect left. *)
Definition PlyModel (T : Three A) (g : option (BufferGeometry A))
    (props : ModelProps) : Element :=
  let '(g', a) := PlyModel_effect T g (lit_1 A) in
  PlyModel_render g' a props.

(** The rendering mode an element stands for. *)
Inductive RenderMode : Type := POINT_CLOUD | SURFACE.

Definition renderMode (e : Element) : option RenderMode :=
  match e with
  | null => None
  | points _ _ _ => Some POINT_CLOUD
  | mesh _ _ _ => Some SURFACE
  end.

Definition element_scale (e : Element) : option (num A * num A * num A) :=
  match e with
  | null => None
  | points _ s _ => Some s
  | mesh _ s _ => Some s
  end.

Definition element_vertexColors (e : Element) : option bool :=
  match e with
  | null => None
  | points _ _ m => Some (pm_vertexColors m)
  | mesh _ _ m => Some (mm_vertexColors m)
  end.

Definition point_size (e : Element) : option (num A) :=
  match e with
  | points _ _ m => Some (size m)
  | _ => None
  end.

End PlyModel.

Arguments ModelProps A : clear implicits.
Arguments Element A : clear implicits.

(** ** The three.js side, from the specification

    The bodies of [computeBoundingBox], [Box3.getSize], [Box3.getCenter],
    [BufferGeometry.center] and [computeVertexNormals] belong to three.js
    and are not part of the repository.  The definitions of this section
    follow what the specification says of them. *)

Section SpecThree.

Context {A : Arith}.
Local Open Scope js_scope.

(** The square root, used to normalise a normal. *)
Variable sqrt : num A -> num A.

Definition zero3 : Vector3 A := MkVector3 (lit_0 A) (lit_0 A) (lit_0 A).

Definition vadd (a b : Vector3 A) : Vector3 A :=
  MkVector3 (vx a + vx b) (vy a + vy b) (vz a + vz b).

Definition vsub (a b : Vector3 A) : Vector3 A :=
  MkVector3 (vx a - vx b) (vy a - vy b) (vz a - vz b).

Definition vmin (a b : Vector3 A) : Vector3 A :=
  MkVector3 (Math_min A (vx a) (vx b)) (Math_min A (vy a) (vy b))
            (Math_min A (vz a) (vz b)).

Definition vmax (a b : Vector3 A) : Vector3 A :=
  MkVector3 (Math_max A (vx a) (vx b)) (Math_max A (vy a) (vy b))
            (Math_max A (vz a) (vz b)).

Definition expand (b : Box3 A) (p : Vector3 A) : Box3 A :=
  match b with
  | EmptyBox3 => MkBox3 p p
  | MkBox3 lo hi => MkBox3 (vmin lo p) (vmax hi p)
  end.

(** Modelled from the spec: the bounding volume of section 3, [min] and
    [max] taken component-wise over the positions (the body of three.js's
    [computeBoundingBox] is missing).  A buffer with no vertex gets the
    empty box. *)
Definition bounding_box (ps : list (Vector3 A)) : Box3 A :=
  fold_left expand ps EmptyBox3.

Definition positions (g : BufferGeometry A) : list (Vector3 A) :=
  match position g with
  | Some ps => ps
  | None => []
  end.

(** Modelled from the spec: [BoundingVolumeCalculator.compute] of section
    4.1, which never raises (three.js's [computeBoundingBox] is missing). *)
Definition spec_computeBoundingBox (g : BufferGeometry A)
  : completion (BufferGeometry A) :=
  Normal (set_boundingBox (bounding_box (positions g)) g).

(** Modelled from the spec: [size = max - min] of section 3, and zero extent
    for the empty buffer as in section 4.2 (three.js's [Box3.getSize] is
    missing). *)
Definition size_of (b : Box3 A) : Vector3 A :=
  match b with
  | EmptyBox3 => zero3
  | MkBox3 lo hi => vsub hi lo
  end.

Definition spec_getSize (b : Box3 A) : completion (Vector3 A) :=
  Normal (size_of b).

(** Modelled from the spec: [center = (min + max) / 2] of section 3
    (three.js's [Box3.getCenter] is missing); the origin for the empty
    box. *)
Definition center_of (b : Box3 A) : Vector3 A :=
  match b with
  | EmptyBox3 => zero3
  | MkBox3 lo hi =>
      MkVector3 ((vx lo + vx hi) / lit_2 A) ((vy lo + vy hi) / lit_2 A)
                ((vz lo + vz hi) / lit_2 A)
  end.

Definition spec_getCenter (b : Box3 A) : completion (Vector3 A) :=
  Normal (center_of b).

(** A position shifted by [- c] and stored back. *)
Definition shift (c p : Vector3 A) : Vector3 A :=
  MkVector3 (toElement A (vx p - vx c)) (toElement A (vy p - vy c))
            (toElement A (vz p - vz c)).

(** Modelled from the spec: the bulk centering operation of section 4.3,
    strategy (a): every position shifted by minus the centre of the
    bounding volume, and only the positions replaced (three.js's
    [BufferGeometry.center] is missing). *)
Definition spec_center (g : BufferGeometry A) : completion (BufferGeometry A) :=
  match position g with
  | Some ps => Normal (set_position (map (shift (center_of (bounding_box ps))) ps) g)
  | None => Normal g
  end.

Definition cross (a b : Vector3 A) : Vector3 A :=
  MkVector3 (vy a * vz b - vz a * vy b)
            (vz a * vx b - vx a * vz b)
            (vx a * vy b - vy a * vx b).

(** The normal of the triangle [pA pB pC], not normalised. *)
Definition face_normal (pA pB pC : Vector3 A) : Vector3 A :=
  cross (vsub pC pB) (vsub pA pB).

(** Every triangle of the index adds its face normal to the normals of its
    three vertices. *)
Fixpoint accumulate (idx : list nat) (ps ns : list (Vector3 A))
  : list (Vector3 A) :=
  match idx with
  | a :: b :: c :: rest =>
      let n := face_normal (nth a ps zero3) (nth b ps zero3) (nth c ps zero3) in
      accumulate rest ps
        (update c (fun v => vadd v n)
           (update b (fun v => vadd v n)
              (update a (fun v => vadd v n) ns)))
  | _ => ns
  end.

(** A vector scaled to length one; the zero vector is left as it is. *)
Definition normalize3 (v : Vector3 A) : Vector3 A :=
  let len := sqrt (vx v * vx v + vy v * vy v + vz v * vz v) in
  if len >? lit_0 A
  then MkVector3 (vx v / len) (vy v / len) (vz v / len)
  else v.

(** Modelled from the spec: [NormalSynthesizer.synthesize] of section 4.5.
    One normal per vertex, the normalised sum of the face normals of the
    triangles that reference the vertex; the buffer is returned as it is
    when it has normals or has no index (three.js's [computeVertexNormals]
    is missing). *)
Definition spec_computeVertexNormals (g : BufferGeometry A)
  : completion (BufferGeometry A) :=
  match normal g, index g with
  | None, Some idx =>
      let ps := positions g in
      Normal (set_normal
                (map normalize3
                   (accumulate idx ps (repeat zero3 (List.length ps)))) g)
  | _, _ => Normal g
  end.

(** The specified library, with the bulk [center]. *)
Definition spec_three : Three A :=
  MkThree spec_computeBoundingBox spec_getSize spec_getCenter
          (Some spec_center) spec_computeVertexNormals.

(** The specified library under one of the two recentering strategies of
    section 4.3: (a) the bulk [center], (b) no [center], hence the loop. *)
Definition spec_strategy (bulk : bool) : Three A :=
  if bulk then spec_three else without_center spec_three.

End SpecThree.

Section Variants.

Context {A : Arith}.

(** The geometry [g] with its colour attribute replaced by [cs]. *)
Definition with_color (cs : option (list (Vector3 A))) (g : BufferGeometry A)
  : BufferGeometry A :=
  MkGeometry (position g) (normal g) cs (index g) (boundingBox g).

End Variants.

(** ** IEEE 754 binary64: JavaScript's numbers *)

Module IEEE.

Local Open Scope float_scope.

(** [Math.max] of two numbers: [NaN] when either is, and [+0] above [-0]. *)
Definition js_max (a b : float) : float :=
  if is_nan a || is_nan b then nan
  else if a <? b then b
  else if b <? a then a
  else if get_sign a then b else a.

(** [Math.min] of two numbers: [NaN] when either is, and [-0] below [+0]. *)
Definition js_min (a b : float) : float :=
  if is_nan a || is_nan b then nan
  else if a <? b then a
  else if b <? a then b
  else if get_sign a then a else b.


(** [Math.fround], the conversion on a store into a [Float32Array], the
    array type of the attributes that [PLYLoader] builds: round to nearest
    binary32, ties to even. *)
Definition Math_fround (x : float) : float :=
  match Prim2SF x with
  | S754_finite s m e => SF2Prim (binary_round 24 128 s m e)
  | _ => x
  end.

Definition ieee : Arith :=
  MkArith float 0 1 2 0.02 PrimFloat.add PrimFloat.sub PrimFloat.mul
          PrimFloat.div (fun a b => b <? a) js_max js_min Math_fround.

Definition three : Three ieee := spec_three (A := ieee) PrimFloat.sqrt.

End IEEE.

(** ** Sample geometries *)

Module Samples.

Import IEEE.
Local Open Scope float_scope.

Definition vec (x y z : float) : Vector3 ieee := MkVector3 (A := ieee) x y z.

Definition geom (ps : option (list (Vector3 ieee)))
    (ns cs : option (list (Vector3 ieee))) (idx : option (list nat))
  : BufferGeometry ieee :=
  MkGeometry (A := ieee) ps ns cs idx None.

Definition default_props : ModelProps ieee := MkProps (A := ieee) None None.

Definition props_scale (s : float) : ModelProps ieee :=
  MkProps (A := ieee) (Some s) None.

(** One triangle, with an index and without normals or colours. *)
Definition triangle : BufferGeometry ieee :=
  geom (Some [vec 0 0 0; vec 1 0 0; vec 0 1 0]) None None (Some [0; 1; 2]%nat).

(** Three vertices and an index attribute that holds no entry. *)
Definition empty_index : BufferGeometry ieee :=
  geom (Some [vec 0 0 0; vec 1 0 0; vec 0 1 0]) None None (Some []).

(** Two vertices and a single colour. *)
Definition miscolored : BufferGeometry ieee :=
  geom (Some [vec 0 0 0; vec 4 0 0]) None (Some [vec 1 0 0]) None.

(** Scenario C of the specification: one vertex at (5, 5, 5), no index. *)
Definition single_point : BufferGeometry ieee :=
  geom (Some [vec 5 5 5]) None None None.

(** A buffer with no vertex. *)
Definition no_vertex : BufferGeometry ieee :=
  geom (Some []) None None None.

(** Scenario A of the specification: the unit cube, twelve triangles. *)
Definition unit_cube : BufferGeometry ieee :=
  geom (Some [vec 0 0 0; vec 1 0 0; vec 1 1 0; vec 0 1 0;
              vec 0 0 1; vec 1 0 1; vec 1 1 1; vec 0 1 1])
       None None
       (Some [0; 2; 1;  0; 3; 2;  4; 5; 6;  4; 6; 7;
              0; 1; 5;  0; 5; 4;  3; 7; 6;  3; 6; 2;
              0; 4; 7;  0; 7; 3;  1; 2; 6;  1; 6; 5]%nat).

(** A library whose normal derivation raises. *)
Definition failing_normals : Three ieee :=
  MkThree (computeBoundingBox three) (getSize three) (getCenter three)
          (center three) (fun _ => Throw).

(** A library whose [center] raises. *)
Definition failing_center : Three ieee :=
  MkThree (computeBoundingBox three) (getSize three) (getCenter three)
          (Some (fun _ => Throw)) (computeVertexNormals three).



(** Two vertices, one with an infinite coordinate. *)
Definition with_infinity : BufferGeometry ieee :=
  geom (Some [vec infinity 0 0; vec 0 0 0]) None None None.

End Samples.

(** ** The per-frame rotation

    [Model], [UploadedModel] and [PlyModel] register the same callback,
    lines 28 to 33, 79 to 84 and 138 to 142:
    [if (ref.current) ref.current.rotation.y += delta * rotationSpeed]. *)

Section Frame.

Context {A : Arith}.
Local Open Scope js_scope.

(** [rotationSpeed = 0] when the prop is not given. *)
Definition rotation_prop (props : ModelProps A) : num A :=
  match rotationSpeed props with
  | Some r => r
  | None => lit_0 A
  end.

(** One frame.  [current] is the rotation (x, y, z) of [ref.current],
    [None] while the ref is [null]. *)
Definition useFrame_rotate (props : ModelProps A)
    (current : option (Vector3 A)) (delta : num A) : option (Vector3 A) :=
  match current with
  | Some r => Some (MkVector3 (vx r) (vy r + delta * rotation_prop props) (vz r))
  | None => None
  end.

(** The frames of a run, one [delta] each, in order. *)
Definition frames (props : ModelProps A) (current : option (Vector3 A))
    (deltas : list (num A)) : option (Vector3 A) :=
  fold_left (useFrame_rotate props) deltas current.

End Frame.

(** ** Predicates on binary64 data *)

Module Compare.

Import IEEE.

(** A vector whose components are binary32 values: storing it into a
    [Float32Array] changes nothing. *)
Definition float32_vector (p : Vector3 ieee) : Prop :=
  Math_fround (vx p) = vx p /\ Math_fround (vy p) = vy p /\
  Math_fround (vz p) = vz p.

Definition finite (x : float) : Prop := is_finite x = true.

End Compare.

(** * Properties *)

(** ** The explicit loop is a map *)

Section LoopFacts.

Context {A : Arith}.

Lemma update_length (i : nat) (f : Vector3 A -> Vector3 A) (ps : list (Vector3 A)) :
  List.length (update i f ps) = List.length ps.
Proof.
  revert i; induction ps as [|p ps IH]; intros [|i]; cbn; auto.
Qed.

Lemma update_at (f : Vector3 A -> Vector3 A) (l1 : list (Vector3 A)) p l2 :
  update (List.length l1) f (l1 ++ p :: l2) = l1 ++ f p :: l2.
Proof.
  induction l1 as [|q l1 IH]; cbn; [reflexivity | now rewrite IH].
Qed.

Lemma nth_error_at (l1 : list (Vector3 A)) p l2 :
  nth_error (l1 ++ p :: l2) (List.length l1) = Some p.
Proof.
  induction l1 as [|q l1 IH]; cbn; auto.
Qed.

(** One turn at index [i] replaces item [i] by its shifted value. *)
Lemma loop_body_at (c : Vector3 A) (l1 : list (Vector3 A)) p l2 :
  loop_body c (l1 ++ p :: l2) (List.length l1) = l1 ++ shift c p :: l2.
Proof.
  unfold loop_body, getX, getY, getZ, setX, setY, setZ.
  rewrite nth_error_at; cbn [option_map].
  rewrite update_at, nth_error_at; cbn [option_map vx vy vz].
  rewrite update_at, nth_error_at; cbn [option_map vx vy vz].
  rewrite update_at. reflexivity.
Qed.

Lemma loop_from (c : Vector3 A) (l2 l1 : list (Vector3 A)) :
  fold_left (loop_body c) (seq (List.length l1) (List.length l2)) (l1 ++ l2)
  = l1 ++ map (shift c) l2.
Proof.
  revert l1; induction l2 as [|p l2 IH]; intros l1; cbn [List.length seq fold_left map].
  - reflexivity.
  - rewrite loop_body_at.
    replace (l1 ++ shift c p :: l2) with ((l1 ++ [shift c p]) ++ l2)
      by (rewrite <- app_assoc; reflexivity).
    replace (S (List.length l1)) with (List.length (l1 ++ [shift c p]))
      by (rewrite length_app; cbn; lia).
    rewrite IH, <- app_assoc. reflexivity.
Qed.

(** The loop of lines 121 to 125 shifts every position by minus the
    centre. *)
Lemma recenter_loop_map (c : Vector3 A) (ps : list (Vector3 A)) :
  recenter_loop c ps = map (shift c) ps.
Proof.
  unfold recenter_loop. exact (loop_from c ps []).
Qed.

(** The accumulation of face normals keeps one slot per vertex. *)
Lemma accumulate_length (ps : list (Vector3 A)) :
  forall (idx : list nat) (ns : list (Vector3 A)),
    List.length (accumulate idx ps ns) = List.length ns.
Proof.
  intros idx.
  assert (H : forall n (l : list nat), (List.length l <= n)%nat ->
              forall ns, List.length (accumulate l ps ns) = List.length ns).
  { induction n as [|n IH]; intros l Hl ns.
    - destruct l; [reflexivity | cbn in Hl; lia].
    - destruct l as [|a [|b [|c rest]]]; try reflexivity.
      cbn [accumulate]. rewrite IH by (cbn in Hl; lia).
      now rewrite !update_length. }
  exact (H (List.length idx) idx (le_n _)).
Qed.

End LoopFacts.

(** ** What the effect leaves behind *)

Section EffectFacts.

Context {A : Arith}.

Lemma PlyModel_effect_some (T : Three A) g a :
  PlyModel_effect T (Some g) a = (Some (geometry_after T g a), autoScale_after T g a).
Proof. reflexivity. Qed.

(** A method call never touches the React state. *)
Lemma call_autoScale (m : BufferGeometry A -> completion (BufferGeometry A)) w :
  autoScale (snd (call m w)) = autoScale w.
Proof.
  unfold call. destruct (m (geometry w)); reflexivity.
Qed.

Lemma recenter_autoScale (T : Three A) box w :
  autoScale (snd (recenter T box w)) = autoScale w.
Proof.
  unfold recenter. destruct (center T) as [native|].
  - apply call_autoScale.
  - unfold bind, eval, deref, write_position.
    destruct (getCenter T box); cbn; [|reflexivity].
    destruct (position (geometry w)); reflexivity.
Qed.

Lemma derive_normals_autoScale (T : Three A) w :
  autoScale (snd (derive_normals T w)) = autoScale w.
Proof.
  unfold derive_normals, bind, read, ret.
  destruct (needs_normals (geometry w)); [apply call_autoScale | reflexivity].
Qed.

(** Once the scale is derived, nothing later in the [try] block changes
    it, whether the later steps return or raise. *)
Lemma scale_is_kept (T : Three A) box w :
  autoScale (snd ((recenter T box ;;; derive_normals T) w)) = autoScale w.
Proof.
  unfold bind.
  destruct (recenter T box w) as [[[]|] w'] eqn:E.
  - rewrite derive_normals_autoScale.
    change w' with (snd (Normal tt, w')). rewrite <- E. apply recenter_autoScale.
  - cbn. change w' with (snd (@Throw unit, w')). rewrite <- E.
    apply recenter_autoScale.
Qed.

(** The [try] block, step by step. *)
Lemma normalize_steps (T : Three A) g a :
  normalize T (MkWorld g a)
  = match computeBoundingBox T g with
    | Throw => (Throw, MkWorld g a)
    | Normal g1 =>
        match boundingBox g1 with
        | None => (Throw, MkWorld g1 a)
        | Some box =>
            match getSize T box with
            | Throw => (Throw, MkWorld g1 a)
            | Normal sz =>
                (recenter T box ;;; derive_normals T) (MkWorld g1 (auto_of sz))
            end
        end
    end.
Proof.
  unfold normalize, derive_scale, bind, call, deref, eval, setAutoScale, ret.
  cbn [geometry autoScale].
  destruct (computeBoundingBox T g) as [g1|]; [|reflexivity].
  cbn [geometry autoScale].
  destruct (boundingBox g1) as [box|]; [|reflexivity].
  destruct (getSize T box) as [sz|]; reflexivity.
Qed.

Lemma autoScale_after_derived (T : Three A) g a g1 box sz :
  computeBoundingBox T g = Normal g1 ->
  boundingBox g1 = Some box ->
  getSize T box = Normal sz ->
  autoScale_after T g a = auto_of sz.
Proof.
  intros Hc Hb Hs.
  unfold autoScale_after, try_catch. cbn [snd].
  rewrite normalize_steps, Hc, Hb, Hs.
  apply (scale_is_kept T box (MkWorld g1 (auto_of sz))).
Qed.

End EffectFacts.

(** ** Rendering *)

Section RenderFacts.

Context {A : Arith}.
Local Open Scope js_scope.

(** C1 (as the code has it).  The primitive is chosen by the presence of
    the index alone: [<points>] (POINT_CLOUD) exactly when the geometry has
    no index attribute, [<mesh>] (SURFACE) exactly when it has one, whatever
    the index holds, an index without entries included. *)
Theorem C1_mode_follows_index_presence
    (g : BufferGeometry A) (a : num A) (props : ModelProps A) :
  let e := PlyModel_render (Some g) a props in
  (renderMode e = Some POINT_CLOUD <-> index g = None) /\
  (renderMode e = Some SURFACE <-> exists idx, index g = Some idx) /\
  (renderMode e = Some POINT_CLOUD <-> exists s m, e = points g s m) /\
  (renderMode e = Some SURFACE <-> exists s m, e = mesh g s m).
Proof.
  unfold PlyModel_render.
  destruct (index g) as [idx|]; cbn; repeat split; intros H;
    try discriminate; eauto;
    try (destruct H as (? & H); discriminate);
    try (destruct H as (? & ? & H); discriminate).
Qed.

(** C9.  In both modes and on the three axes the scale of the rendered
    object is [autoScale * s], where [s] is the value of the [scale] prop
    (1 when the prop is not given); after a load [autoScale] is the factor
    the effect left, which is the derived [auto] whenever the bounding box
    was measured. *)
Theorem C9_scale_is_autoScale_times_user_scale
    (T : Three A) (g : BufferGeometry A) (a s : num A)
    (rs : option (num A)) :
  element_scale (PlyModel_render (Some g) a (MkProps (Some s) rs))
  = Some (a * s, a * s, a * s) /\
  element_scale (PlyModel_render (Some g) a (MkProps None rs))
  = Some (a * lit_1 A, a * lit_1 A, a * lit_1 A) /\
  (index g = None ->
   exists m, PlyModel_render (Some g) a (MkProps (Some s) rs)
             = points g (a * s, a * s, a * s) m) /\
  (forall idx, index g = Some idx ->
   exists m, PlyModel_render (Some g) a (MkProps (Some s) rs)
             = mesh g (a * s, a * s, a * s) m) /\
  element_scale (PlyModel T (Some g) (MkProps (Some s) rs))
  = Some (autoScale_after T g (lit_1 A) * s,
          autoScale_after T g (lit_1 A) * s,
          autoScale_after T g (lit_1 A) * s) /\
  (forall g1 box sz,
     computeBoundingBox T g = Normal g1 -> boundingBox g1 = Some box ->
     getSize T box = Normal sz ->
     element_scale (PlyModel T (Some g) (MkProps (Some s) rs))
     = Some (auto_of sz * s, auto_of sz * s, auto_of sz * s)).
Proof.
  unfold PlyModel. rewrite PlyModel_effect_some.
  unfold PlyModel_render, scale_prop. cbn [scale].
  refine (conj _ (conj _ (conj _ (conj _ (conj _ _))))).
  - destruct (index g); reflexivity.
  - destruct (index g); reflexivity.
  - intros ->. eexists. reflexivity.
  - intros idx ->. eexists. reflexivity.
  - destruct (index (geometry_after T g (lit_1 A))); reflexivity.
  - intros g1 box sz Hc Hb Hs.
    rewrite (autoScale_after_derived T g (lit_1 A) g1 box sz Hc Hb Hs).
    destruct (index (geometry_after T g (lit_1 A))); reflexivity.
Qed.

(** C10.  A point cloud is drawn with point size [0.02 * s], where [s] is
    the value of the [scale] prop (1 when the prop is not given): the
    derived [autoScale] is no part of it, so two renders that differ in
    [autoScale] only have the same point size.  A mesh has no point
    size. *)
Theorem C10_point_size_ignores_autoScale
    (g : BufferGeometry A) (a a' s : num A) (rs : option (num A)) :
  point_size (PlyModel_render (Some g) a (MkProps (Some s) rs))
  = match index g with
    | None => Some (lit_0_02 A * s)
    | Some _ => None
    end /\
  point_size (PlyModel_render (Some g) a (MkProps None rs))
  = match index g with
    | None => Some (lit_0_02 A * lit_1 A)
    | Some _ => None
    end /\
  (forall props,
     point_size (PlyModel_render (Some g) a props)
     = point_size (PlyModel_render (Some g) a' props)) /\
  (forall T,
     point_size (PlyModel T (Some g) (MkProps (Some s) rs))
     = match index (geometry_after T g (lit_1 A)) with
       | None => Some (lit_0_02 A * s)
       | Some _ => None
       end).
Proof.
  unfold PlyModel, PlyModel_render, scale_prop. cbn [scale].
  refine (conj _ (conj _ (conj _ _))).
  - destruct (index g); reflexivity.
  - destruct (index g); reflexivity.
  - intros props. destruct (index g); reflexivity.
  - intros T. rewrite PlyModel_effect_some.
    destruct (index (geometry_after T g (lit_1 A))); reflexivity.
Qed.

End RenderFacts.

(** ** The derived scale, in binary64 *)

Section ScaleFacts.

Import IEEE.
Local Open Scope float_scope.


Lemma compare_self (x : spec_float) :
  SFcompare x x = Some Eq \/ SFcompare x x = None.
Proof.
  destruct x as [sg|sg| |sg m e]; cbn; auto; destruct sg; auto;
    rewrite Z.compare_refl, Pos.compare_cont_refl; auto.
Qed.



(** *** The order of binary64 numbers *)







(** *** Degenerate extents under the specified measure

    With the bounding volume of the specification, coincident vertices,
    whatever their common value, get scale 1: every component of the size
    is [p - p], which is [+0] or NaN, so [maxDim] is [+0] or NaN. *)








(** *** The quotient is a number

    Rounding a quotient of non-negative mantissas never yields NaN and
    keeps the sign. *)

Lemma shr_1_nonneg (r : shr_record) :
  (0 <= shr_m r)%Z -> (0 <= shr_m (shr_1 r))%Z.
Proof.
  destruct r as [m b s]. destruct m as [|[p|p|]|p]; cbn; lia.
Qed.

Lemma iter_shr_1_nonneg (p : positive) :
  forall r, (0 <= shr_m r)%Z -> (0 <= shr_m (SpecFloat.iter_pos shr_1 p r))%Z.
Proof.
  induction p as [p IH|p IH|]; intros r Hr; cbn [SpecFloat.iter_pos].
  - apply IH, IH, shr_1_nonneg, Hr.
  - apply IH, IH, Hr.
  - apply shr_1_nonneg, Hr.
Qed.

Lemma shr_fexp_nonneg (m e : Z) (l : location) :
  (0 <= m)%Z -> (0 <= shr_m (fst (shr_fexp prec emax m e l)))%Z.
Proof.
  intros Hm. unfold shr_fexp, shr.
  assert (H0 : (0 <= shr_m (shr_record_of_loc m l))%Z)
    by (destruct l as [|[]]; exact Hm).
  destruct (fexp prec emax (Zdigits2 m + e) - e)%Z as [|p|p]; cbn [fst];
    auto using iter_shr_1_nonneg.
Qed.

Lemma round_nearest_even_nonneg (m : Z) (l : location) :
  (0 <= m)%Z -> (0 <= round_nearest_even m l)%Z.
Proof.
  intros Hm. destruct l as [|[]]; cbn; try lia.
  destruct (Z.even m); lia.
Qed.

(** The sign of a spec float, [None] for NaN. *)
Lemma binary_round_aux_sign (sx : bool) (mx ex : Z) (lx : location) :
  (0 <= mx)%Z ->
  match binary_round_aux prec emax sx mx ex lx with
  | S754_nan => False
  | S754_zero s | S754_infinity s | S754_finite s _ _ => s = sx
  end.
Proof.
  intros Hm. unfold binary_round_aux.
  pose proof (shr_fexp_nonneg mx ex lx Hm) as H1.
  destruct (shr_fexp prec emax mx ex lx) as [r1 e1]. cbn [fst] in H1.
  pose proof (shr_fexp_nonneg
                (round_nearest_even (shr_m r1) (loc_of_shr_record r1)) e1
                loc_Exact (round_nearest_even_nonneg _ _ H1)) as H2.
  destruct (shr_fexp prec emax _ e1 loc_Exact) as [r2 e2]. cbn [fst] in H2.
  destruct (shr_m r2) as [|p|p]; [reflexivity| |lia].
  destruct (e2 <=? emax - prec)%Z; reflexivity.
Qed.

Lemma div_core_nonneg (m1 m2 : positive) (e1 e2 : Z) :
  (0 <= fst (fst (SFdiv_core_binary prec emax (Zpos m1) e1 (Zpos m2) e2)))%Z.
Proof.
  unfold SFdiv_core_binary.
  set (s := (e1 - e2 - _)%Z).
  set (m' := match s with Zpos _ => Z.shiftl (Zpos m1) s | Z0 => Zpos m1
                        | Zneg _ => 0%Z end).
  assert (Hm : (0 <= m')%Z).
  { unfold m'. destruct s; try lia. apply Z.shiftl_nonneg. lia. }
  pose proof (Z.div_pos m' (Zpos m2) Hm eq_refl) as Hq.
  unfold Z.div in Hq.
  destruct (Z.div_eucl m' (Zpos m2)) as [q r]. exact Hq.
Qed.

(** A positive number divides 2 into a number that is not NaN and not
    negative. *)
Lemma two_over_positive (m : float) :
  (0 <? m) = true -> (0 <=? 2 / m) = true.
Proof.
  rewrite FloatAxioms.ltb_spec, FloatAxioms.leb_spec, div_spec.
  change (Prim2SF 0) with (S754_zero false).
  change (Prim2SF 2) with (S754_finite false 4503599627370496 (-51)).
  unfold SF64div, SFdiv, SFltb, SFleb.
  destruct (Prim2SF m) as [sg|sg| |sg mm e]; cbn [SFcompare]; try discriminate.
  - destruct sg; [discriminate | reflexivity].
  - destruct sg; [discriminate |]. intros _.
    pose proof (div_core_nonneg 4503599627370496 mm (-51) e) as Hq.
    destruct (SFdiv_core_binary prec emax 4503599627370496 (-51) (Z.pos mm) e)
      as [[q e'] l]. cbn [fst] in Hq.
    pose proof (binary_round_aux_sign (xorb false false) q e' l Hq) as Hs.
    destruct (binary_round_aux prec emax (xorb false false) q e' l)
      as [s|s| |s mz ez]; cbn in Hs |- *; try contradiction; subst s; reflexivity.
Qed.

Lemma auto_of_sign (sz : Vector3 ieee) : (0 <=? (auto_of sz : float)) = true.
Proof.
  unfold auto_of. cbn [ngt ieee ndiv lit_0 lit_1 desired lit_2].
  destruct (0 <? maxDim sz) eqn:H.
  - exact (two_over_positive _ H).
  - reflexivity.
Qed.




End ScaleFacts.

(** ** Failures inside the [try] block *)

Section FailureFacts.

Context {A : Arith}.

(** C3 (as the code has it).  An exception raised by a step is caught and
    the effect completes; what the steps before it did is kept.  A failure
    while the bounding box or its size is measured leaves the scale at the
    value it had (1 on a first load); once the size is measured the scale
    is the derived one, whatever raises later; a failing [center], or a
    loop that raises on entry, leaves the positions as they were, with the
    derived scale; a failing normal derivation leaves the positions
    recentred, with the derived scale. *)
Theorem C3_failure_is_caught_and_earlier_steps_stay
    (T : Three A) (g : BufferGeometry A) (a : num A) :
  fst (try_catch (normalize T) (MkWorld g a)) = Normal tt /\
  (computeBoundingBox T g = Throw ->
   PlyModel_effect T (Some g) a = (Some g, a)) /\
  (forall g1,
     computeBoundingBox T g = Normal g1 -> boundingBox g1 = None ->
     PlyModel_effect T (Some g) a = (Some g1, a)) /\
  (forall g1 box,
     computeBoundingBox T g = Normal g1 -> boundingBox g1 = Some box ->
     getSize T box = Throw ->
     PlyModel_effect T (Some g) a = (Some g1, a)) /\
  (forall g1 box sz,
     computeBoundingBox T g = Normal g1 -> boundingBox g1 = Some box ->
     getSize T box = Normal sz ->
     snd (PlyModel_effect T (Some g) a) = auto_of sz) /\
  (forall g1 box sz native,
     computeBoundingBox T g = Normal g1 -> boundingBox g1 = Some box ->
     getSize T box = Normal sz ->
     center T = Some native -> native g1 = Throw ->
     PlyModel_effect T (Some g) a = (Some g1, auto_of sz)) /\
  (forall g1 box sz,
     computeBoundingBox T g = Normal g1 -> boundingBox g1 = Some box ->
     getSize T box = Normal sz ->
     center T = None -> getCenter T box = Throw \/ position g1 = None ->
     PlyModel_effect T (Some g) a = (Some g1, auto_of sz)) /\
  (forall g1 box sz g2,
     computeBoundingBox T g = Normal g1 -> boundingBox g1 = Some box ->
     getSize T box = Normal sz ->
     recenter T box (MkWorld g1 (auto_of sz))
     = (Normal tt, MkWorld g2 (auto_of sz)) ->
     needs_normals g2 = true -> computeVertexNormals T g2 = Throw ->
     PlyModel_effect T (Some g) a = (Some g2, auto_of sz)).
Proof.
  split; [reflexivity|].
  unfold PlyModel_effect, try_catch. cbn [snd]. rewrite normalize_steps.
  repeat split.
  - intros ->. reflexivity.
  - intros g1 -> ->. reflexivity.
  - intros g1 box -> -> ->. reflexivity.
  - intros g1 box sz -> -> ->.
    apply (scale_is_kept T box (MkWorld g1 (auto_of sz))).
  - intros g1 box sz native -> -> -> Hn Ht.
    unfold bind, recenter. rewrite Hn. unfold call. cbn [geometry].
    rewrite Ht. reflexivity.
  - intros g1 box sz -> -> -> Hn [Ht | Ht];
      unfold bind, recenter; rewrite Hn; unfold bind, eval, deref;
      cbn [geometry].
    + rewrite Ht. reflexivity.
    + destruct (getCenter T box); rewrite ?Ht; reflexivity.
  - intros g1 box sz g2 -> -> -> Hr Hn Ht.
    unfold bind. rewrite Hr. unfold derive_normals, bind, read. cbn [geometry].
    rewrite Hn. unfold call. cbn [geometry]. rewrite Ht. reflexivity.
Qed.

End FailureFacts.

(** ** Normal derivation *)

(** Unfolds the effect run with the specified library. *)
Ltac run_spec_effect :=
  unfold geometry_after, autoScale_after, try_catch, normalize, derive_scale,
    recenter;
  cbn [snd spec_strategy spec_three without_center center computeBoundingBox
       getSize getCenter computeVertexNormals];
  unfold bind, call, deref, eval, setAutoScale, ret, write_position,
    derive_normals, read, spec_computeBoundingBox, spec_getSize,
    spec_getCenter, spec_center, spec_computeVertexNormals, needs_normals,
    positions.

Section NormalFacts.

Context {A : Arith}.

(** With the specified library, what the whole effect leaves as normals:
    one per vertex when they had to be derived, the old ones otherwise. *)
Lemma normal_after_spec (sqrt : num A -> num A) (bulk : bool)
    (g : BufferGeometry A) (a : num A) :
  (forall ps, position g = Some ps -> needs_normals g = true ->
     exists ns,
       normal (geometry_after (spec_strategy sqrt bulk) g a) = Some ns /\
       List.length ns = List.length ps) /\
  (needs_normals g = false ->
   normal (geometry_after (spec_strategy sqrt bulk) g a) = normal g).
Proof.
  destruct g as [ps0 ns0 cs idx bb]. split.
  - intros ps Hp Hn. cbn in Hp. subst ps0.
    unfold needs_normals in Hn. cbn in Hn.
    destruct ns0 as [ns0|]; [discriminate|].
    destruct idx as [idx|]; [|discriminate].
    destruct bulk; run_spec_effect; cbn; rewrite ?recenter_loop_map;
      (eexists; split; [reflexivity|]);
      now rewrite !length_map, accumulate_length, repeat_length, ?length_map.
  - intros Hn. unfold needs_normals in Hn. cbn in Hn.
    destruct bulk; run_spec_effect;
      destruct ps0, ns0, idx; try discriminate; reflexivity.
Qed.

(** C4.  The step calls [computeVertexNormals] exactly when the geometry
    has no normal attribute and has an index: the geometry is then the one
    the call returns, or, if the call raises, the one it was; in every
    other case the step leaves the world as it is.  With the derivation as
    specified, the step returns the same geometry with a normal attribute
    of one normal per vertex, and so does the whole effect; when no
    derivation is due the effect leaves the normals it found. *)
Theorem C4_normals_derived_iff_absent_and_indexed
    (T : Three A) (sqrt : num A -> num A) (bulk : bool) (w : World A) :
  let g := geometry w in
  (needs_normals g = true <-> normal g = None /\ exists idx, index g = Some idx) /\
  (needs_normals g = true ->
   forall g', computeVertexNormals T g = Normal g' ->
     derive_normals T w = (Normal tt, MkWorld g' (autoScale w))) /\
  (needs_normals g = true -> computeVertexNormals T g = Throw ->
   derive_normals T w = (Throw, w)) /\
  (needs_normals g = false -> derive_normals T w = (Normal tt, w)) /\
  (needs_normals g = true ->
   exists ns,
     derive_normals (spec_strategy sqrt bulk) w
     = (Normal tt, MkWorld (set_normal ns g) (autoScale w)) /\
     List.length ns = List.length (positions g)) /\
  (forall ps, position g = Some ps -> needs_normals g = true ->
     exists ns,
       normal (geometry_after (spec_strategy sqrt bulk) g (autoScale w))
       = Some ns /\
       List.length ns = List.length ps) /\
  (needs_normals g = false ->
   normal (geometry_after (spec_strategy sqrt bulk) g (autoScale w))
   = normal g).
Proof.
  cbn zeta.
  refine (conj _ (conj _ (conj _ (conj _ (conj _
            (normal_after_spec sqrt bulk (geometry w) (autoScale w))))))).
  - unfold needs_normals.
    destruct (normal (geometry w)), (index (geometry w)) as [idx|]; split;
      try discriminate; try (intros [Hn [i Hi]]; discriminate); eauto.
  - intros Hn g' Hc. unfold derive_normals, bind, read, call.
    now rewrite Hn, Hc.
  - intros Hn Hc. unfold derive_normals, bind, read, call.
    now rewrite Hn, Hc.
  - intros Hn. unfold derive_normals, bind, read, ret. now rewrite Hn.
  - intros Hn. unfold derive_normals, bind, read, call. rewrite Hn.
    assert (Hs : computeVertexNormals (spec_strategy sqrt bulk)
                 = spec_computeVertexNormals sqrt) by (destruct bulk; reflexivity).
    rewrite Hs. unfold spec_computeVertexNormals.
    unfold needs_normals in Hn.
    destruct (normal (geometry w)), (index (geometry w)) as [idx|];
      try discriminate.
    eexists. split; [reflexivity|].
    now rewrite length_map, accumulate_length, repeat_length.
Qed.

End NormalFacts.

(** ** Recentering *)

Section RecenterFacts.

Context {A : Arith}.

(** C7.  Under either strategy, the geometry's own [center] as specified
    or the explicit loop, with any centre and whether the step returns or
    raises, recentering leaves the normal, colour and index attributes as
    they were; the scale is not touched either. *)
Theorem C7_recenter_touches_positions_only
    (T : Three A) (box : Box3 A) (w : World A) :
  center T = None \/ center T = Some spec_center ->
  let w' := snd (recenter T box w) in
  normal (geometry w') = normal (geometry w) /\
  color (geometry w') = color (geometry w) /\
  index (geometry w') = index (geometry w) /\
  autoScale w' = autoScale w.
Proof.
  intros H. cbn zeta. unfold recenter.
  destruct H as [-> | ->].
  - unfold bind, eval, deref, write_position.
    destruct (getCenter T box) as [c|]; cbn; auto.
    destruct (position (geometry w)) as [ps|]; cbn; auto.
  - unfold call, spec_center.
    destruct (position (geometry w)) as [ps|]; cbn; auto.
Qed.

(** C6.  Run on the same geometry, the effect that recentres with the
    geometry's own [center] (as specified) and the effect that recentres
    with the explicit loop leave the same position attribute, item for
    item. *)
Theorem C6_bulk_center_and_loop_agree
    (sqrt : num A -> num A) (g : BufferGeometry A) (a : num A) :
  position (geometry_after (spec_three sqrt) g a)
  = position (geometry_after (without_center (spec_three sqrt)) g a).
Proof.
  unfold geometry_after, try_catch, normalize, derive_scale, recenter.
  cbn [snd spec_three without_center center computeBoundingBox getSize
       getCenter computeVertexNormals].
  unfold bind, call, deref, eval, setAutoScale, ret, write_position,
    derive_normals, read, spec_computeBoundingBox, spec_getSize,
    spec_getCenter, spec_center, spec_computeVertexNormals, needs_normals,
    positions.
  destruct g as [[ps|] [ns|] cs [idx|] bb]; cbn;
    rewrite ?recenter_loop_map; reflexivity.
Qed.

End RecenterFacts.

(** ** Vertex colours *)

Section ColorFacts.

Context {A : Arith}.

(** The specified library never touches the colours or the index. *)
Lemma color_index_after_spec (sqrt : num A -> num A) (bulk : bool)
    (g : BufferGeometry A) (a : num A) :
  color (geometry_after (spec_strategy sqrt bulk) g a) = color g /\
  index (geometry_after (spec_strategy sqrt bulk) g a) = index g.
Proof.
  destruct g as [ps ns cs idx bb].
  unfold geometry_after, try_catch, normalize, derive_scale, recenter.
  destruct bulk;
    cbn [snd spec_strategy spec_three without_center center computeBoundingBox
         getSize getCenter computeVertexNormals];
    unfold bind, call, deref, eval, setAutoScale, ret, write_position,
      derive_normals, read, spec_computeBoundingBox, spec_getSize,
      spec_getCenter, spec_center, spec_computeVertexNormals, needs_normals,
      positions;
    destruct ps, ns, idx; cbn; split; reflexivity.
Qed.

(** With the specified library the colours play no part in the effect:
    replacing them replaces them in the result and changes nothing else. *)
Lemma color_is_passed_through (sqrt : num A -> num A) (bulk : bool)
    (g : BufferGeometry A) (a : num A) (cs' : option (list (Vector3 A))) :
  geometry_after (spec_strategy sqrt bulk) (with_color cs' g) a
  = with_color cs' (geometry_after (spec_strategy sqrt bulk) g a) /\
  autoScale_after (spec_strategy sqrt bulk) (with_color cs' g) a
  = autoScale_after (spec_strategy sqrt bulk) g a.
Proof.
  destruct g as [ps ns cs idx bb].
  unfold geometry_after, autoScale_after, try_catch, normalize, derive_scale,
    recenter, with_color.
  destruct bulk;
    cbn [snd spec_strategy spec_three without_center center computeBoundingBox
         getSize getCenter computeVertexNormals];
    unfold bind, call, deref, eval, setAutoScale, ret, write_position,
      derive_normals, read, spec_computeBoundingBox, spec_getSize,
      spec_getCenter, spec_center, spec_computeVertexNormals, needs_normals,
      positions;
    destruct ps, ns, idx; cbn; split; reflexivity.
Qed.

(** With the specified library no step raises, on the loop path provided
    there is a position attribute. *)
Lemma nothing_raises (sqrt : num A -> num A) (bulk : bool)
    (g : BufferGeometry A) (a : num A) :
  bulk = true \/ position g <> None ->
  fst (normalize (spec_strategy sqrt bulk) (MkWorld g a)) = Normal tt.
Proof.
  intros H. destruct g as [ps ns cs idx bb].
  unfold normalize, derive_scale, recenter.
  destruct bulk;
    cbn [snd spec_strategy spec_three without_center center computeBoundingBox
         getSize getCenter computeVertexNormals];
    unfold bind, call, deref, eval, setAutoScale, ret, write_position,
      derive_normals, read, spec_computeBoundingBox, spec_getSize,
      spec_getCenter, spec_center, spec_computeVertexNormals, needs_normals,
      positions;
    destruct ps, ns, idx; cbn; try reflexivity;
    destruct H as [H | H]; try discriminate; now elim H.
Qed.

(** C8 (as the code has it).  The [vertexColors] flag of the material is
    [hasVertexColors], which is true exactly when the geometry has a colour
    attribute, of whatever length.  Whatever the library does, a loaded
    geometry is rendered, not dropped.  With the library as specified no
    step of the effect raises (on the loop path provided there is a
    position attribute), the colour attribute comes out as it went in and
    flags the element on screen, and it has no influence on anything else:
    with other colours, or none, the effect leaves the same positions,
    normals, index and bounding box and the same scale. *)
Theorem C8_vertex_colors_follow_presence_only
    (T : Three A) (sqrt : num A -> num A) (bulk : bool)
    (g : BufferGeometry A) (props : ModelProps A) (a : num A)
    (cs' : option (list (Vector3 A))) :
  let S := spec_strategy sqrt bulk in
  (hasVertexColors g = true <-> exists cs, color g = Some cs) /\
  (forall a0, element_vertexColors (PlyModel_render (Some g) a0 props)
              = Some (hasVertexColors g)) /\
  PlyModel T (Some g) props <> null /\
  (bulk = true \/ position g <> None ->
   fst (normalize S (MkWorld g a)) = Normal tt) /\
  color (geometry_after S g a) = color g /\
  element_vertexColors (PlyModel S (Some g) props) = Some (hasVertexColors g) /\
  geometry_after S (with_color cs' g) a = with_color cs' (geometry_after S g a) /\
  autoScale_after S (with_color cs' g) a = autoScale_after S g a.
Proof.
  cbn zeta.
  refine (conj _ (conj _ (conj _ (conj (nothing_raises sqrt bulk g a)
            (conj (proj1 (color_index_after_spec sqrt bulk g a))
               (conj _ (color_is_passed_through sqrt bulk g a cs'))))))).
  - unfold hasVertexColors. destruct (color g) as [cs|]; split.
    + eauto.
    + reflexivity.
    + discriminate.
    + intros [cs H]; discriminate.
  - intros a0. unfold PlyModel_render. destruct (index g); reflexivity.
  - unfold PlyModel. rewrite PlyModel_effect_some. unfold PlyModel_render.
    destruct (index (geometry_after T g (lit_1 A))); discriminate.
  - unfold PlyModel. rewrite PlyModel_effect_some. unfold PlyModel_render.
    destruct (color_index_after_spec sqrt bulk g (lit_1 A)) as [Hc Hi].
    destruct (index (geometry_after (spec_strategy sqrt bulk) g (lit_1 A)));
      cbn; unfold hasVertexColors; rewrite Hc; reflexivity.
Qed.

End ColorFacts.

(** ** Where the specification and the code part, at concrete inputs *)

Section Counterexamples.

Import IEEE Samples.
Local Open Scope float_scope.

(** C1 as stated fails: an index attribute that is present and holds no
    entry is drawn as a mesh (SURFACE), not as points. *)
Lemma C1_counterexample_empty_index_is_surface :
  index empty_index = Some [] /\
  renderMode (PlyModel_render (Some empty_index) 1 default_props)
  = Some SURFACE /\
  renderMode (PlyModel three (Some empty_index) default_props) = Some SURFACE.
Proof.
  repeat split.
Qed.

Lemma C1_mode_follows_index_presence_witness :
  renderMode (PlyModel_render (Some single_point) 1 default_props)
  = Some POINT_CLOUD.
Proof.
  apply (proj1 (C1_mode_follows_index_presence single_point 1 default_props)).
  reflexivity.
Defined.

(** C3 as stated fails: when the normal derivation raises, the scale is the
    derived 2, not 1, and the positions are recentred; when [center] raises,
    the positions are untouched and the scale is the derived 2 all the
    same. *)
Lemma C3_counterexample_late_failure_keeps_scale :
  (let r := PlyModel_effect failing_normals (Some triangle) 1 in
   computeVertexNormals failing_normals
     (set_position [vec (-0.5) (-0.5) 0; vec 0.5 (-0.5) 0; vec (-0.5) 0.5 0]
        (set_boundingBox (MkBox3 (vec 0 0 0) (vec 1 1 0)) triangle)) = Throw /\
   snd r = 2 /\
   (snd r =? 1) = false /\
   option_map position (fst r)
   = Some (Some [vec (-0.5) (-0.5) 0; vec 0.5 (-0.5) 0; vec (-0.5) 0.5 0]) /\
   option_map normal (fst r) = Some None /\
   r <> (Some triangle, 1)) /\
  (let r := PlyModel_effect failing_center (Some triangle) 1 in
   snd r = 2 /\
   (snd r =? 1) = false /\
   option_map position (fst r) = Some (position triangle) /\
   r <> (Some triangle, 1)).
Proof.
  cbv zeta.
  refine (conj (conj _ (conj _ (conj _ (conj _ (conj _ _)))))
               (conj _ (conj _ (conj _ _)))).
  all: try reflexivity.
  - intros H.
    assert (E : (snd (PlyModel_effect failing_normals (Some triangle) 1) =? 1)
                = false) by reflexivity.
    rewrite H in E. discriminate E.
  - intros H.
    assert (E : (snd (PlyModel_effect failing_center (Some triangle) 1) =? 1)
                = false) by reflexivity.
    rewrite H in E. discriminate E.
Qed.

Lemma C3_failure_is_caught_and_earlier_steps_stay_witness :
  PlyModel_effect failing_center (Some triangle) 1
  = (Some (set_boundingBox (MkBox3 (vec 0 0 0) (vec 1 1 0)) triangle),
     auto_of (vec 1 1 0)).
Proof.
  apply (proj1 (proj2 (proj2 (proj2 (proj2 (proj2
           (C3_failure_is_caught_and_earlier_steps_stay
              failing_center triangle 1))))))
           _ (MkBox3 (vec 0 0 0) (vec 1 1 0)) (vec 1 1 0) (fun _ => Throw));
    reflexivity.
Defined.

(** C8 as stated fails: with two vertices and a single colour nothing is
    rejected and nothing falls back; the element is drawn with
    [vertexColors] true and the scale derived from the positions. *)
Lemma C8_counterexample_mismatched_colors_are_used :
  option_map (@List.length _) (position miscolored) = Some 2%nat /\
  option_map (@List.length _) (color miscolored) = Some 1%nat /\
  hasVertexColors miscolored = true /\
  element_vertexColors (PlyModel_render (Some miscolored) 1 default_props)
  = Some true /\
  (let e := PlyModel three (Some miscolored) default_props in
   renderMode e = Some POINT_CLOUD /\
   element_vertexColors e = Some true /\
   element_scale e = Some (0.5, 0.5, 0.5)).
Proof.
  cbv zeta. repeat split.
Qed.


End Counterexamples.

(** ** Witnesses and the scenarios of the specification *)

Section Scenarios.

Import IEEE Samples.
Local Open Scope float_scope.

Lemma C7_recenter_touches_positions_only_witness :
  let w := MkWorld (A := ieee) miscolored 1 in
  let w' := snd (recenter three (MkBox3 (vec 0 0 0) (vec 4 0 0)) w) in
  normal (geometry w') = normal (geometry w) /\
  color (geometry w') = color (geometry w) /\
  index (geometry w') = index (geometry w) /\
  autoScale w' = autoScale w.
Proof.
  apply (C7_recenter_touches_positions_only
           three (MkBox3 (vec 0 0 0) (vec 4 0 0)) (MkWorld (A := ieee) miscolored 1)).
  right. reflexivity.
Defined.

Lemma C4_normals_derived_iff_absent_and_indexed_witness :
  exists ns,
    normal (geometry_after (spec_strategy (A := ieee) PrimFloat.sqrt true)
              triangle 1) = Some ns /\
    List.length ns = 3%nat.
Proof.
  apply (proj1 (proj2 (proj2 (proj2 (proj2 (proj2
           (C4_normals_derived_iff_absent_and_indexed
              three (PrimFloat.sqrt : num ieee -> num ieee) true
              (MkWorld (A := ieee) triangle 1)))))))
           [vec 0 0 0; vec 1 0 0; vec 0 1 0]);
    reflexivity.
Defined.

Lemma C9_scale_is_autoScale_times_user_scale_witness :
  element_scale (PlyModel three (Some triangle) (props_scale 3))
  = Some (6, 6, 6) /\
  element_scale (PlyModel three (Some miscolored) (props_scale 3))
  = Some (1.5, 1.5, 1.5).
Proof.
  split.
  - apply (proj2 (proj2 (proj2 (proj2 (proj2
             (C9_scale_is_autoScale_times_user_scale
                three triangle 1 3 None)))))
             (set_boundingBox (MkBox3 (vec 0 0 0) (vec 1 1 0)) triangle)
             (MkBox3 (vec 0 0 0) (vec 1 1 0)) (vec 1 1 0));
      reflexivity.
  - apply (proj2 (proj2 (proj2 (proj2 (proj2
             (C9_scale_is_autoScale_times_user_scale
                three miscolored 1 3 None)))))
             (set_boundingBox (MkBox3 (vec 0 0 0) (vec 4 0 0)) miscolored)
             (MkBox3 (vec 0 0 0) (vec 4 0 0)) (vec 4 0 0));
      reflexivity.
Defined.

Lemma C10_point_size_ignores_autoScale_witness :
  point_size (PlyModel_render (Some miscolored) 0.5 (props_scale 3))
  = Some 0.06 /\
  point_size (PlyModel three (Some miscolored) (props_scale 3)) = Some 0.06.
Proof.
  split.
  - apply (proj1 (C10_point_size_ignores_autoScale miscolored 0.5 0.5 3 None)).
  - apply (proj2 (proj2 (proj2
             (C10_point_size_ignores_autoScale miscolored 0.5 0.5 3 None)))
             three).
Defined.

(** Scenario A: the unit cube is a surface, gets eight normals, has no
    vertex colours and is scaled by 2 / 1. *)
Example scenario_A_unit_cube :
  let e := PlyModel three (Some unit_cube) default_props in
  renderMode e = Some SURFACE /\
  element_vertexColors e = Some false /\
  element_scale e = Some (2, 2, 2) /\
  option_map (@List.length _) (normal (geometry_after three unit_cube 1))
  = Some 8%nat.
Proof.
  cbv zeta. repeat split.
Qed.

(** Scenario C: a single vertex at (5, 5, 5) has zero extent, keeps scale 1
    and is moved to the origin, under either strategy. *)
Example scenario_C_single_point :
  size_of (bounding_box (positions single_point)) = vec 0 0 0 /\
  (forall bulk,
     autoScale_after (spec_strategy (A := ieee) PrimFloat.sqrt bulk) single_point 1 = 1 /\
     position (geometry_after (spec_strategy (A := ieee) PrimFloat.sqrt bulk) single_point 1)
     = Some [vec 0 0 0]).
Proof.
  split; [reflexivity|].
  intros [|]; split; reflexivity.
Qed.

(** In binary64 too the triangle is re-measured with its centre at the
    origin. *)
Example triangle_remeasured_center :
  forall bulk,
    center_of (bounding_box (positions
      (geometry_after (spec_strategy (A := ieee) PrimFloat.sqrt bulk) triangle 1)))
    = vec 0 0 0.
Proof.
  intros [|]; reflexivity.
Qed.

(** In binary64 the re-measured centre is not always near the origin: with
    an infinite coordinate the recentred positions and the new centre are
    NaN along that axis, under either strategy. *)
Example infinite_coordinate_remeasured_center :
  forall bulk,
    is_nan (vx (center_of (bounding_box (positions
      (geometry_after (spec_strategy (A := ieee) PrimFloat.sqrt bulk)
         with_infinity 1))))) = true.
Proof.
  intros [|]; reflexivity.
Qed.

(** A buffer without vertices, and a geometry without position attribute,
    keep scale 1. *)
Example empty_buffer_keeps_scale_one :
  autoScale_after three no_vertex 1 = 1 /\
  autoScale_after three (geom None None None None) 1 = 1 /\
  autoScale_after (without_center three) (geom None None None None) 1 = 1.
Proof.
  repeat split.
Qed.

End Scenarios.

(** * Further properties of the code *)

(** ** The loop *)

Section MoreLoopFacts.

Context {A : Arith}.
Local Open Scope js_scope.

(** X1.  After the loop of lines 121 to 125, every vertex reads as its old
    coordinates minus the centre, each subtracted once and stored; past the
    end both reads are undefined. *)
Theorem X1_loop_subtracts_center_once_per_vertex
    (c : Vector3 A) (pos : list (Vector3 A)) (i : nat) :
  getX (recenter_loop c pos) i
  = option_map (fun x => toElement A (x - vx c)) (getX pos i) /\
  getY (recenter_loop c pos) i
  = option_map (fun y => toElement A (y - vy c)) (getY pos i) /\
  getZ (recenter_loop c pos) i
  = option_map (fun z => toElement A (z - vz c)) (getZ pos i).
Proof.
  rewrite recenter_loop_map. unfold getX, getY, getZ.
  rewrite nth_error_map.
  destruct (nth_error pos i) as [p|]; repeat split; reflexivity.
Qed.

(** X2.  On the loop path, whatever the library returns or raises, the
    recentering keeps the number of vertices and never refreshes
    [geometry.boundingBox]: the field holds after the step what it held
    before, though the positions have moved. *)
Theorem X2_loop_path_keeps_count_and_stale_box
    (T : Three A) (box : Box3 A) (w : World A) :
  let w' := snd (recenter (without_center T) box w) in
  boundingBox (geometry w') = boundingBox (geometry w) /\
  option_map (@List.length _) (position (geometry w'))
  = option_map (@List.length _) (position (geometry w)) /\
  (forall c ps,
     getCenter T box = Normal c -> position (geometry w) = Some ps ->
     position (geometry w') = Some (map (shift c) ps)).
Proof.
  cbn zeta. unfold recenter, without_center. cbn [center getCenter].
  unfold bind, eval, deref, write_position.
  destruct (getCenter T box) as [c|]; cbn.
  - destruct (position (geometry w)) as [ps|] eqn:Hp; cbn.
    + rewrite recenter_loop_map, length_map. repeat split.
      intros c' ps' Hc Hps. now inversion Hc; inversion Hps.
    + rewrite Hp. repeat split. discriminate.
  - repeat split. discriminate.
Qed.

End MoreLoopFacts.

(** ** Binary64: what the derived scale can be *)

Section MoreScaleFacts.

Import IEEE Compare.
Local Open Scope float_scope.

(** The scale the effect leaves is the one it found, or a derived one. *)
Lemma autoScale_after_cases {A : Arith} (T : Three A) (g : BufferGeometry A)
    (a : num A) :
  autoScale_after T g a = a \/ exists sz, autoScale_after T g a = auto_of sz.
Proof.
  unfold autoScale_after, try_catch. cbn [snd]. rewrite normalize_steps.
  destruct (computeBoundingBox T g) as [g1|]; [|now left].
  destruct (boundingBox g1) as [box|]; [|now left].
  destruct (getSize T box) as [sz|]; [|now left].
  right. exists sz. apply (scale_is_kept T box (MkWorld g1 (auto_of sz))).
Qed.

(** X3.  In binary64, after a first load and whatever the library returns
    or raises, the scale is never NaN and never negative.  It can be [+0]
    (an infinite extent) and it can be [+Infinity] (a subnormal extent). *)
Theorem X3_scale_is_never_nan_or_negative
    (T : Three ieee) (g : BufferGeometry ieee) :
  (0 <=? (autoScale_after T g 1 : float)) = true /\
  is_nan (autoScale_after T g 1 : float) = false /\
  (auto_of (Samples.vec infinity 0 0) : float) = 0 /\
  (auto_of (Samples.vec 0x1p-1074 0 0) : float) = infinity.
Proof.
  assert (H : (0 <=? (autoScale_after T g 1 : float)) = true).
  { destruct (autoScale_after_cases T g 1) as [-> | [sz ->]].
    - reflexivity.
    - apply auto_of_sign. }
  refine (conj H (conj _ (conj _ _))); [| vm_compute; reflexivity ..].
  unfold is_nan. revert H.
  rewrite FloatAxioms.leb_spec, FloatAxioms.eqb_spec. unfold SFleb, SFeqb.
  change (Prim2SF 0) with (S754_zero false).
  destruct (compare_self (Prim2SF (autoScale_after T g 1 : float))) as [-> | E].
  - reflexivity.
  - destruct (Prim2SF (autoScale_after T g 1 : float)) as [sg|sg| |sg mm e];
      cbn in E |- *; try discriminate;
      destruct sg; cbn in E; try discriminate;
      rewrite Z.compare_refl, Pos.compare_cont_refl in E; discriminate.
Qed.

End MoreScaleFacts.

(** ** Binary64: when nothing moves *)

Section StillFacts.

Import IEEE Compare.
Local Open Scope float_scope.

Lemma Prim2SF_inj (x y : float) : Prim2SF x = Prim2SF y -> x = y.
Proof.
  intros H. rewrite <- (SF2Prim_Prim2SF x), <- (SF2Prim_Prim2SF y).
  now rewrite H.
Qed.

Lemma sub_zero (x : float) : x - 0 = x.
Proof.
  apply Prim2SF_inj. rewrite sub_spec.
  change (Prim2SF 0) with (S754_zero false).
  destruct (Prim2SF x) as [sg|sg| |sg m e]; try reflexivity.
  destruct sg; reflexivity.
Qed.

Lemma shift_origin (p : Vector3 ieee) :
  float32_vector p -> shift (zero3 (A := ieee)) p = p.
Proof.
  destruct p as [x y z]. unfold float32_vector, shift. cbn.
  intros (Hx & Hy & Hz). now rewrite !sub_zero, Hx, Hy, Hz.
Qed.

(** X4.  In binary64 with [Float32Array] storage, recentering about the
    origin is the identity: when the measured centre is (0, 0, 0) and the
    stored coordinates are binary32 values, the loop leaves every position
    bit for bit as it was, negative zeros and NaN included. *)
Theorem X4_recentering_about_origin_is_identity (pos : list (Vector3 ieee)) :
  Forall float32_vector pos ->
  recenter_loop (zero3 (A := ieee)) pos = pos.
Proof.
  intros H. rewrite recenter_loop_map.
  induction H as [|p ps Hp _ IH]; cbn [map]; [reflexivity|].
  now rewrite IH, (shift_origin p Hp).
Qed.

Lemma X4_recentering_about_origin_is_identity_witness :
  recenter_loop (zero3 (A := ieee))
    [Samples.vec (-0) 0.5 nan; Samples.vec neg_infinity 3 (-0.25)]
  = [Samples.vec (-0) 0.5 nan; Samples.vec neg_infinity 3 (-0.25)].
Proof.
  apply X4_recentering_about_origin_is_identity.
  repeat constructor.
Defined.

Lemma finite_cases (d : float) :
  finite d ->
  (exists s, Prim2SF d = S754_zero s) \/ (exists s m e, Prim2SF d = S754_finite s m e).
Proof.
  unfold finite, is_finite, is_nan, is_infinity.
  rewrite !FloatAxioms.eqb_spec, abs_spec.
  change (Prim2SF infinity) with (S754_infinity false).
  destruct (Prim2SF d) as [sg|sg| |sg m e]; cbn; try discriminate; eauto.
  destruct sg; cbn; discriminate.
Qed.

(** Adding [delta * 0] changes a number only from [-0] to [+0]. *)
Lemma add_zero_product (y d : float) :
  finite d -> y + d * 0 = y \/ (y = (-0) /\ y + d * 0 = 0).
Proof.
  intros Hd.
  assert (Hz : exists s, Prim2SF (d * 0) = S754_zero s).
  { rewrite mul_spec. change (Prim2SF 0) with (S754_zero false).
    destruct (finite_cases d Hd) as [[s ->] | (s & m & e & ->)]; cbn; eauto. }
  destruct Hz as [s Hz].
  assert (Hy : Prim2SF (y + d * 0) = SFadd prec emax (Prim2SF y) (S754_zero s))
    by (rewrite add_spec, Hz; reflexivity).
  destruct (Prim2SF y) as [sy|sy| |sy m e] eqn:Ey; cbn in Hy.
  - destruct sy, s; cbn in Hy.
    + left. apply Prim2SF_inj. now rewrite Hy, Ey.
    + right. split; apply Prim2SF_inj; [exact Ey | exact Hy].
    + left. apply Prim2SF_inj. now rewrite Hy, Ey.
    + left. apply Prim2SF_inj. now rewrite Hy, Ey.
  - left. apply Prim2SF_inj. now rewrite Hy, Ey.
  - left. apply Prim2SF_inj. now rewrite Hy, Ey.
  - left. apply Prim2SF_inj. now rewrite Hy, Ey.
Qed.

(** X5.  With [rotationSpeed] 0, the default, no number of frames with
    finite [delta] makes the object drift: [rotation.x] and [rotation.z]
    are never written, and [rotation.y] keeps its value bit for bit, except
    that a [-0] may become [+0].  A [null] ref stays [null]. *)
Theorem X5_zero_speed_never_drifts
    (props : ModelProps ieee) (r : Vector3 ieee) (deltas : list float) :
  rotation_prop props = (0 : float) ->
  Forall finite deltas ->
  frames props None deltas = None /\
  exists y : float,
    frames props (Some r) deltas = Some (MkVector3 (A := ieee) (vx r) y (vz r)) /\
    (y = vy r \/ ((vy r : float) = (-0) /\ y = 0)).
Proof.
  intros Hs Hd. split.
  - clear Hd. induction deltas as [|d ds IH]; [reflexivity | exact IH].
  - revert r. induction Hd as [|d ds Hfin _ IH]; intros r.
    + exists (vy r). split; [destruct r; reflexivity | now left].
    + unfold frames. cbn [fold_left useFrame_rotate]. rewrite Hs.
      destruct (IH (MkVector3 (A := ieee) (vx r) (vy r + d * 0) (vz r)))
        as (y & Hy & Hcase).
      exists y. split; [exact Hy|]. cbn [vy] in Hcase.
      destruct (add_zero_product (vy r) d Hfin) as [E | [E0 E]].
      * cbn [nadd nmul ieee] in Hcase. rewrite E in Hcase. exact Hcase.
      * right. split; [exact E0|].
        cbn [nadd nmul ieee] in Hcase. rewrite E in Hcase.
        destruct Hcase as [-> | [_ ->]]; reflexivity.
Qed.

Lemma X5_zero_speed_never_drifts_witness :
  frames Samples.default_props None [0.016; 0.033] = None /\
  exists y : float,
    frames Samples.default_props (Some (Samples.vec 0.5 1.25 0)) [0.016; 0.033]
    = Some (MkVector3 (A := ieee) 0.5 y 0) /\
    (y = 1.25 \/ ((1.25 : float) = (-0) /\ y = 0)).
Proof.
  apply (X5_zero_speed_never_drifts Samples.default_props
           (Samples.vec 0.5 1.25 0) [0.016; 0.033]).
  - reflexivity.
  - repeat constructor.
Defined.

End StillFacts.
